(** * transplant-wizard: database/setup-via-lambda.py

    A shallow embedding of the script's three functions
    ([create_rds_data_client], [execute_statement], [main]) and of its
    module body, followed by the properties of the remote statement
    executor and of the summary entry point.

    Python's effects are threaded explicitly: a [World] holds the module
    globals, the text written to standard output, the log of requests
    sent to the RDS Data API and the behaviour of the remote endpoint.
    A Python call is a function [World -> Outcome A * World] that either
    returns a value or raises an exception. *)

From Stdlib Require Import ZArith Ascii.
From stdpp Require Import base strings gmap list.

Set Default Proof Using "Type".
#[local] Set Warnings "-register-all".

(** ** Python values *)

(** The values a JSON-like boto3 response can hold. Dictionaries are the
    [Dict[Any, Any]] of the annotation restricted to string keys, which
    is what the service returns. *)
Inductive PyValue : Type :=
  | PyNone
  | PyBool (b : bool)
  | PyInt (z : Z)
  | PyStr (s : string)
  | PyList (l : list PyValue)
  | PyDict (d : gmap string PyValue).

(** ** Exceptions *)

(** The part of the built-in class hierarchy that [except Exception]
    inspects: the four classes that derive from [BaseException]
    directly, and classes derived from any of them by single
    inheritance (botocore's [ClientError], [EndpointConnectionError],
    ... are [Subclass _ Exception] at some depth). *)
Inductive ExcClass : Type :=
  | BaseException
  | Exception
  | SystemExit
  | KeyboardInterrupt
  | GeneratorExit
  | Subclass (name : string) (base : ExcClass).

(** [issubclass(c, Exception)]. *)
Fixpoint issubclass_Exception (c : ExcClass) : bool :=
  match c with
  | Exception => true
  | Subclass _ base => issubclass_Exception base
  | BaseException | SystemExit | KeyboardInterrupt | GeneratorExit => false
  end.

(** An exception object: its class and the text [str(e)] yields. *)
Record PyExc : Type := mkExc {
  exc_class : ExcClass;
  exc_str : string
}.

(** [isinstance(e, Exception)], the test of an [except Exception] clause. *)
Definition isinstance_Exception (e : PyExc) : bool :=
  issubclass_Exception (exc_class e).

(** How a Python call ends. *)
Inductive Outcome (A : Type) : Type :=
  | Return (a : A)
  | Raise (e : PyExc).
Arguments Return {A} a.
Arguments Raise {A} e.

(** ** The remote service *)

(** The keyword arguments of [client.execute_statement(...)]. *)
Record Request : Type := mkRequest {
  resourceArn : string;
  secretArn : string;
  database : string;
  sql : string
}.

(** The service is opaque: given the requests it has already received and
    the current one, it returns a payload or raises. *)
Definition Service : Type :=
  list Request -> Request -> Outcome (gmap string PyValue).

(** A boto3 client object. *)
Record Client : Type := mkClient {
  client_service : string;
  client_region : string;
  client_execute : Service
}.

(** ** The world *)

(** The three module-level names of lines 13-15. Python looks a global up
    when the function body runs, so they are part of the state. *)
Record Globals : Type := mkGlobals {
  g_DB_CLUSTER_ARN : string;
  g_SECRET_ARN : string;
  g_DATABASE_NAME : string
}.

Record World : Type := mkWorld {
  globals : Globals;
  stdout : string;
  calls : list Request;
  remote : Service
}.

Definition set_globals (g : Globals) (w : World) : World :=
  mkWorld g (stdout w) (calls w) (remote w).

Definition write_stdout (s : string) (w : World) : World :=
  mkWorld (globals w) (stdout w +:+ s) (calls w) (remote w).

Definition log_call (r : Request) (w : World) : World :=
  mkWorld (globals w) (stdout w) (calls w ++ [r]) (remote w).

Definition set_remote (s : Service) (w : World) : World :=
  mkWorld (globals w) (stdout w) (calls w) s.

(** ** The monad of Python calls *)

Definition Py (A : Type) : Type := World -> Outcome A * World.

#[global] Instance Py_ret : MRet Py :=
  fun A (a : A) (w : World) => (Return a, w).

#[global] Instance Py_bind : MBind Py :=
  fun A B (k : A -> Py B) (m : Py A) (w : World) =>
    match m w with
    | (Return a, w') => k a w'
    | (Raise e, w') => (Raise e, w')
    end.

(** [try: body  except Exception as e: handler e]. An exception that is
    not an instance of [Exception] is not caught. *)
Definition try_except_Exception {A : Type}
    (body : Py A) (handler : PyExc -> Py A) : Py A :=
  fun w =>
    match body w with
    | (Return a, w') => (Return a, w')
    | (Raise e, w') =>
        if isinstance_Exception e then handler e w' else (Raise e, w')
    end.

(** Reading a module global. *)
Definition global (field : Globals -> string) : Py string :=
  fun w => (Return (field (globals w)), w).

Definition nl : string := String "010"%char EmptyString.

(** [print(s)]: the text and a newline go to standard output. *)
Definition print (s : string) : Py unit :=
  fun w => (Return tt, write_stdout (s +:+ nl) w).

(** [client.execute_statement(resourceArn=..., secretArn=..., database=...,
    sql=...)]: one request reaches the service, which answers or raises. *)
Definition client_execute_statement (client : Client) (req : Request)
    : Py (gmap string PyValue) :=
  fun w => (client_execute client (calls w) req, log_call req w).

(** [boto3.client(service_name, region_name=...)]: a client bound to the
    remote endpoint of this world. *)
Definition boto3_client (service_name region_name : string) : Py Client :=
  fun w => (Return (mkClient service_name region_name (remote w)), w).

(** ** The script *)

(** Lines 13-15. *)
Definition DB_CLUSTER_ARN : string :=
  "arn:aws:rds:us-east-1:147997160304:db:transplant-platform-db".
Definition SECRET_ARN : string :=
  "arn:aws:secretsmanager:us-east-1:147997160304:secret:transplant-platform-db-secret".
Definition DATABASE_NAME : string := "transplant_platform".

(** Lines 17-19. *)
Definition create_rds_data_client : Py Client :=
  boto3_client "rds-data" "us-east-1".

(** [str(e)]. *)
Definition str (e : PyExc) : string := exc_str e.

(** Lines 21-33. The optional parameter is [None] when the caller omits
    it; its default is the literal of the [def] line. *)
Definition execute_statement (client : Client) (sql : string)
    (database : option string) : Py (gmap string PyValue) :=
  let database := default "postgres" database in
  try_except_Exception
    (arn ← global g_DB_CLUSTER_ARN;
     secret ← global g_SECRET_ARN;
     response ← client_execute_statement client
                  (mkRequest arn secret database sql);
     mret response)
    (fun e =>
       print ("Error executing SQL: " +:+ str e);;
       mret {[ "error" := PyStr (str e) ]}).

(** Lines 35-72. *)
Definition main : Py PyValue :=
  print "Setting up database using alternative method...";;
  print "Note: This requires Aurora Serverless or Data API enabled";;
  print "For regular RDS instances, we'll need to set up a VPN or bastion host";;
  print (nl +:+ "=== Database Setup Summary ===");;
  print "✅ Created comprehensive database schema";;
  print "✅ Created seed data with all required information";;
  print "✅ Created automated setup scripts";;
  print "❌ Network connectivity issue prevents direct setup";;
  print (nl +:+ "=== Next Steps ===");;
  print "1. Use AWS Systems Manager Session Manager to connect through VPC";;
  print "2. Set up a bastion host in the public subnet";;
  print "3. Use AWS Lambda in the VPC to execute the SQL";;
  print "4. Temporarily create a public subnet route (not recommended for production)";;
  print (nl +:+ "=== Database Schema Created ===");;
  print "- Users table (unified for patients and social workers)";;
  print "- Patients table with PHI fields";;
  print "- Social workers table with clinic assignments";;
  print "- Dialysis clinics (3 clinics as specified)";;
  print "- Transplant centers (10 centers with exact data from requirements)";;
  print "- ROI consent tracking with digital signatures";;
  print "- Patient referrals (up to 3 transplant center selections)";;
  print "- Real-time notifications for social workers";;
  print "- Comprehensive audit logging for HIPAA compliance";;
  print "- User sessions for security tracking";;
  print (nl +:+ "=== Seed Data Ready ===");;
  print "- 3 Dialysis clinics: Metro Health, Lakeside Renal, Grand River";;
  print "- 6 Social workers (2 per clinic)";;
  print "- 10 Transplant centers with exact addresses and wait times";;
  print "- System configuration data";;
  print "- Database views and functions for common operations";;
  mret (PyBool true).

(** The globals the module body binds (lines 13-15). *)
Definition module_globals : Globals :=
  mkGlobals DB_CLUSTER_ARN SECRET_ARN DATABASE_NAME.

Definition bind_module_globals : Py unit :=
  fun w => (Return tt, set_globals module_globals w).

(** The module body: the assignments, then lines 74-75. [dunder_name] is
    the value of [__name__]; the value [main()] returns is dropped. The
    imports of lines 7-10 are taken to succeed. *)
Definition module_body (dunder_name : string) : Py unit :=
  bind_module_globals;;
  if decide (dunder_name = "__main__") then main;; mret tt else mret tt.

(** How the interpreter ends after running the file as a script: exit
    status 0 when the module body returns, a traceback otherwise. *)
Inductive Termination : Type :=
  | ExitSuccess
  | UncaughtException (e : PyExc).

Definition run_script (w : World) : Termination * World :=
  match module_body "__main__" w with
  | (Return _, w') => (ExitSuccess, w')
  | (Raise e, w') => (UncaughtException e, w')
  end.

(** ** Callers *)

(** What a user of the loaded module can do with it. *)
Inductive Op : Type :=
  | CallCreateClient
  | CallExecute (client : Client) (sql : string) (database : option string)
  | CallMain.

(** The world after one call, whatever its outcome. *)
Definition run_op (w : World) (o : Op) : World :=
  match o with
  | CallCreateClient => (create_rds_data_client w).2
  | CallExecute client sql database => (execute_statement client sql database w).2
  | CallMain => (main w).2
  end.

Definition run_ops (ops : list Op) (w : World) : World :=
  fold_left run_op ops w.

(** ** Observations used in the statements *)

(** The request [execute_statement] builds in world [w]. *)
Definition request_of (sql : string) (database : option string) (w : World)
    : Request :=
  mkRequest (g_DB_CLUSTER_ARN (globals w)) (g_SECRET_ARN (globals w))
            (default "postgres" database) sql.

(** What the underlying service call does with it. *)
Definition service_outcome (client : Client) (sql : string)
    (database : option string) (w : World) : Outcome (gmap string PyValue) :=
  client_execute client (calls w) (request_of sql database w).

(** The world after the call when the service raised [e] and the handler
    of lines 31-33 ran: the request is logged, the error line printed. *)
Definition handled (sql : string) (database : option string) (w : World)
    (e : PyExc) : World :=
  write_stdout (("Error executing SQL: " +:+ str e) +:+ nl)
               (log_call (request_of sql database w) w).

(** [s] without its first [n] characters. *)
Fixpoint string_drop (n : nat) (s : string) : string :=
  match n, s with
  | O, _ => s
  | S n', String _ s' => string_drop n' s'
  | S _, EmptyString => EmptyString
  end.

(** The text a call adds to standard output. *)
Definition printed_by {A : Type} (m : Py A) (w : World) : string :=
  string_drop (String.length (stdout w)) (stdout (m w).2).




(** The test [ "error" in result ] a caller can apply to a returned
    dictionary. *)
Definition has_error_key (result : gmap string PyValue) : bool :=
  bool_decide (is_Some (result !! "error")).

(** A world with nothing printed and nothing sent, whose endpoint
    answers every request with an empty payload. *)
Definition blank : World :=
  mkWorld module_globals EmptyString [] (fun _ _ => Return ∅).

(** The text [main] prints, computed once from the definition above. *)
Definition main_output : string :=
  Eval vm_compute in stdout (main blank).2.


(** ** Sample clients *)

(** [botocore.exceptions.ClientError], a direct subclass of [Exception]. *)
Definition ClientError : ExcClass := Subclass "ClientError" Exception.

(** A client whose service answers every request with [payload]. *)
Definition answering (payload : gmap string PyValue) : Client :=
  mkClient "rds-data" "us-east-1" (fun _ _ => Return payload).

(** A client whose service raises [e] on every request. *)
Definition raising (e : PyExc) : Client :=
  mkClient "rds-data" "us-east-1" (fun _ _ => Raise e).


(** ** Observations on sequences of calls *)

(** The request a call of the module forwards under globals [g], if it
    forwards one: only [execute_statement] talks to the service. *)
Definition op_request (g : Globals) (o : Op) : option Request :=
  match o with
  | CallExecute _ stmt db =>
      Some (mkRequest (g_DB_CLUSTER_ARN g) (g_SECRET_ARN g)
                      (default "postgres" db) stmt)
  | CallCreateClient | CallMain => None
  end.

(** The world in which the global [DATABASE_NAME] was rebound to [name]. *)
Definition set_DATABASE_NAME (name : string) (w : World) : World :=
  set_globals (mkGlobals (g_DB_CLUSTER_ARN (globals w))
                         (g_SECRET_ARN (globals w)) name) w.

(** A client whose answers do not depend on the requests sent before. *)
Definition history_independent (client : Client) : Prop :=
  forall (h h' : list Request) (r : Request),
    client_execute client h r = client_execute client h' r.

(** The service did not answer with a payload that has an ["error"] key. *)
Definition payload_lacks_error_key
    (o : Outcome (gmap string PyValue)) : bool :=
  match o with
  | Return payload => negb (has_error_key payload)
  | Raise _ => true
  end.

(** * Properties *)

(** ** Strings and standard output *)

Lemma string_app_cons (ch : ascii) (a b : string) :
  String ch a +:+ b = String ch (a +:+ b).
Proof. reflexivity. Qed.

Lemma string_app_nil_r (a : string) : a +:+ EmptyString = a.
Proof.
  induction a as [|ch a IH]; [reflexivity|].
  by rewrite string_app_cons, IH.
Qed.

Lemma string_app_assoc (a b c : string) : (a +:+ b) +:+ c = a +:+ (b +:+ c).
Proof.
  induction a as [|ch a IH]; [reflexivity|].
  by rewrite !string_app_cons, IH.
Qed.

Lemma string_drop_app (a b : string) : string_drop (String.length a) (a +:+ b) = b.
Proof.
  induction a as [|ch a IH]; [reflexivity|].
  rewrite string_app_cons. exact IH.
Qed.


Lemma write_stdout_twice (a b : string) (w : World) :
  write_stdout b (write_stdout a w) = write_stdout (a +:+ b) w.
Proof.
  unfold write_stdout. cbn [globals stdout calls remote].
  by rewrite string_app_assoc.
Qed.

Lemma print_then {A : Type} (s : string) (k : Py A) (w : World) :
  (print s;; k) w = k (write_stdout (s +:+ nl) w).
Proof. reflexivity. Qed.

(** ** One call of [execute_statement], step by step *)

Section Executor.

Variables (client : Client) (sql : string) (database : option string).
Variable w : World.

Lemma execute_statement_run :
  execute_statement client sql database w =
    match service_outcome client sql database w with
    | Return payload =>
        (Return payload, log_call (request_of sql database w) w)
    | Raise e =>
        if isinstance_Exception e
        then (Return {[ "error" := PyStr (str e) ]}, handled sql database w e)
        else (Raise e, log_call (request_of sql database w) w)
    end.
Proof.
  unfold execute_statement, try_except_Exception, service_outcome.
  unfold mbind, Py_bind, global, client_execute_statement.
  fold (request_of sql database w).
  destruct (client_execute client (calls w) (request_of sql database w))
    as [payload|e]; [reflexivity|].
  destruct (isinstance_Exception e); reflexivity.
Qed.

Lemma execute_statement_calls :
  calls (execute_statement client sql database w).2 =
    calls w ++ [request_of sql database w].
Proof.
  rewrite execute_statement_run.
  destruct (service_outcome client sql database w) as [payload|e];
    [reflexivity|].
  destruct (isinstance_Exception e); reflexivity.
Qed.

Lemma execute_statement_globals :
  globals (execute_statement client sql database w).2 = globals w.
Proof.
  rewrite execute_statement_run.
  destruct (service_outcome client sql database w) as [payload|e];
    [reflexivity|].
  destruct (isinstance_Exception e); reflexivity.
Qed.

End Executor.

(** A few runs on concrete inputs. *)

Example run_with_failing_service :
  execute_statement (raising (mkExc ClientError "boom")) "SELECT 1" None blank =
    (Return {[ "error" := PyStr "boom" ]},
     mkWorld module_globals ("Error executing SQL: boom" +:+ nl)
             [mkRequest DB_CLUSTER_ARN SECRET_ARN "postgres" "SELECT 1"]
             (remote blank)).
Proof. by rewrite execute_statement_run. Qed.

Example run_with_empty_sql :
  calls (execute_statement (answering ∅) EmptyString (Some EmptyString) blank).2 =
    [mkRequest DB_CLUSTER_ARN SECRET_ARN EmptyString EmptyString].
Proof. by rewrite execute_statement_calls. Qed.

Example run_create_rds_data_client :
  create_rds_data_client blank =
    (Return (mkClient "rds-data" "us-east-1" (remote blank)), blank).
Proof. reflexivity. Qed.

Example subclass_of_ClientError_is_caught :
  isinstance_Exception
    (mkExc (Subclass "BadRequestException" ClientError) "bad request") = true.
Proof. reflexivity. Qed.

Example GeneratorExit_is_not_caught :
  isinstance_Exception (mkExc GeneratorExit EmptyString) = false.
Proof. reflexivity. Qed.

(** ** The executor's result *)




(** C3: whatever the SQL text, the database name and the world, when the
    underlying call returns payload [payload], [execute_statement]
    returns that very payload; nothing is printed and the only change to
    the world is the logged request. *)
Theorem execute_statement_pass_through
    (client : Client) (sql : string) (database : option string) (w : World)
    (payload : gmap string PyValue) :
  service_outcome client sql database w = Return payload ->
  execute_statement client sql database w =
    (Return payload, log_call (request_of sql database w) w).
Proof. intros Hout. by rewrite execute_statement_run, Hout. Qed.

Lemma execute_statement_pass_through_witness :
  execute_statement
    (answering {[ "numberOfRecordsUpdated" := PyInt 0;
                  "generatedFields" := PyList [] ]})
    "CREATE TABLE t (id INT)" (Some "transplant_platform") blank =
  (Return {[ "numberOfRecordsUpdated" := PyInt 0;
             "generatedFields" := PyList [] ]},
   log_call (request_of "CREATE TABLE t (id INT)"
                        (Some "transplant_platform") blank) blank).
Proof.
  apply (execute_statement_pass_through
           (answering {[ "numberOfRecordsUpdated" := PyInt 0;
                         "generatedFields" := PyList [] ]})
           "CREATE TABLE t (id INT)" (Some "transplant_platform") blank).
  reflexivity.
Defined.




(** ** The request that is forwarded *)

(** C2, as stated, fails: with the [database] argument omitted the
    forwarded request names ["postgres"], not the value of
    [DATABASE_NAME], which is ["transplant_platform"]. *)
Lemma omitted_database_is_not_DATABASE_NAME :
  database <$> last (calls (execute_statement (answering ∅) "SELECT 1" None
                              blank).2) = Some "postgres"
  /\ g_DATABASE_NAME (globals blank) = DATABASE_NAME
  /\ database <$> last (calls (execute_statement (answering ∅) "SELECT 1" None
                                 blank).2) <> Some DATABASE_NAME.
Proof.
  rewrite execute_statement_calls. simpl.
  split; [reflexivity|]. split; [reflexivity|]. discriminate.
Qed.

(** C2, amended: with the [database] argument omitted, the one request
    forwarded to the service names the database ["postgres"], the
    literal default of the parameter, in every world and so whatever the
    global [DATABASE_NAME] holds. *)
Theorem omitted_database_is_postgres
    (client : Client) (sql : string) (w : World) :
  exists req : Request,
    calls (execute_statement client sql None w).2 = calls w ++ [req]
    /\ database req = "postgres".
Proof.
  exists (request_of sql None w). split; [|reflexivity].
  apply execute_statement_calls.
Qed.

(** ** The entry point, step by step *)

Lemma main_run (w : World) :
  main w = (Return (PyBool true), write_stdout main_output w).
Proof.
  unfold main. rewrite !print_then, !write_stdout_twice.
  reflexivity.
Qed.

Lemma module_body_main (w : World) :
  module_body "__main__" w =
    (Return tt, write_stdout main_output (set_globals module_globals w)).
Proof.
  unfold module_body, mbind, Py_bind, bind_module_globals.
  rewrite decide_True by reflexivity.
  by rewrite main_run.
Qed.


(** [main] and [create_rds_data_client] leave the globals and the request
    log alone; [execute_statement] leaves the globals alone and logs one
    request built from them. *)
Lemma run_op_globals (w : World) (o : Op) : globals (run_op w o) = globals w.
Proof.
  destruct o as [|client stmt db|]; cbn [run_op].
  - reflexivity.
  - apply execute_statement_globals.
  - by rewrite main_run.
Qed.





(** C8: the SQL text and the database name reach the service exactly as
    given, for every pair of strings (the empty SQL text included): the
    one request logged carries them unchanged, and the result is decided
    by the service's answer to that request alone. *)
Theorem execute_statement_forwards_verbatim
    (client : Client) (stmt db : string) (w : World) :
  exists req : Request,
    calls (execute_statement client stmt (Some db) w).2 = calls w ++ [req]
    /\ sql req = stmt
    /\ database req = db
    /\ (execute_statement client stmt (Some db) w).1 =
         match client_execute client (calls w) req with
         | Return payload => Return payload
         | Raise e =>
             if isinstance_Exception e
             then Return {[ "error" := PyStr (str e) ]}
             else Raise e
         end.
Proof.
  exists (request_of stmt (Some db) w).
  split; [apply execute_statement_calls|].
  split; [reflexivity|]. split; [reflexivity|].
  rewrite execute_statement_run. unfold service_outcome.
  destruct (client_execute client (calls w) (request_of stmt (Some db) w))
    as [payload|e]; [reflexivity|].
  destruct (isinstance_Exception e); reflexivity.
Qed.

(** C9: each call of [execute_statement] sends exactly one request to the
    service, whether the service answers or raises: the log of requests
    grows by one entry. *)
Theorem execute_statement_calls_service_once
    (client : Client) (stmt : string) (db : option string) (w : World) :
  length (calls (execute_statement client stmt db w).2) = S (length (calls w))
  /\ take (length (calls w)) (calls (execute_statement client stmt db w).2)
     = calls w.
Proof.
  rewrite execute_statement_calls. split.
  - rewrite length_app. simpl. lia.
  - by rewrite take_app_length.
Qed.



(** ** The entry point *)


(** C7: two runs of the entry point print the same text and return the
    same value whatever the two worlds are, in particular whatever the
    remote service does in each; [main] sends no request, and replacing
    the service changes nothing in what [main] does. The same holds for
    the file run as a script. *)
Theorem main_is_independent_of_the_service (w1 w2 : World) :
  printed_by main w1 = printed_by main w2
  /\ (main w1).1 = (main w2).1
  /\ printed_by (module_body "__main__") w1 =
     printed_by (module_body "__main__") w2
  /\ calls (main w1).2 = calls w1
  /\ calls (run_script w1).2 = calls w1
  /\ forall service : Service,
       main (set_remote service w1) =
         ((main w1).1, set_remote service (main w1).2).
Proof.
  unfold printed_by, run_script.
  rewrite !module_body_main, !main_run. cbn [fst snd].
  pose proof (string_drop_app (stdout w1) main_output) as H1.
  pose proof (string_drop_app (stdout w2) main_output) as H2.
  split. { etrans; [exact H1 | symmetry; exact H2]. }
  split; [reflexivity|].
  split. { etrans; [exact H1 | symmetry; exact H2]. }
  split; [reflexivity|]. split; [reflexivity|].
  intros service. by rewrite main_run.
Qed.

(** * Further properties of the module *)

(** ** What [execute_statement] lets through *)


(** X2: the only text [execute_statement] ever prints is the line
    ["Error executing SQL: "] followed by [str(e)], once, when it catches
    [e]; a successful call and a call whose exception propagates print
    nothing. *)
Theorem execute_statement_prints
    (client : Client) (stmt : string) (db : option string) (w : World) :
  printed_by (execute_statement client stmt db) w =
    match service_outcome client stmt db w with
    | Return _ => EmptyString
    | Raise e =>
        if isinstance_Exception e
        then ("Error executing SQL: " +:+ str e) +:+ nl
        else EmptyString
    end.
Proof.
  unfold printed_by. rewrite execute_statement_run.
  pose proof (string_drop_app (stdout w) EmptyString) as Hnone.
  rewrite string_app_nil_r in Hnone.
  destruct (service_outcome client stmt db w) as [payload|e];
    [exact Hnone|].
  destruct (isinstance_Exception e); [|exact Hnone].
  exact (string_drop_app (stdout w) (("Error executing SQL: " +:+ str e) +:+ nl)).
Qed.

(** ** What a caller can read off the result *)

(** X3: when the service does not put an ["error"] key in its payloads,
    the test [ "error" in result ] on the returned dictionary tells the
    two paths apart: it holds exactly when the service call raised. *)
Theorem error_key_test_is_exact
    (client : Client) (stmt : string) (db : option string) (w : World)
    (result : gmap string PyValue) :
  payload_lacks_error_key (service_outcome client stmt db w) = true ->
  (execute_statement client stmt db w).1 = Return result ->
  (has_error_key result = true <->
   exists e, service_outcome client stmt db w = Raise e).
Proof.
  rewrite execute_statement_run.
  destruct (service_outcome client stmt db w) as [payload|e] eqn:Hout;
    cbn [payload_lacks_error_key]; intros Hlacks Hres.
  - injection Hres as <-. apply negb_true_iff in Hlacks. rewrite Hlacks.
    split; [discriminate | intros [e He]; discriminate He].
  - destruct (isinstance_Exception e); [|discriminate Hres].
    injection Hres as <-. split; [intros _; by exists e|]. intros _.
    unfold has_error_key. apply bool_decide_eq_true_2.
    rewrite lookup_singleton_eq. by eexists.
Qed.

Lemma error_key_test_is_exact_witness :
  has_error_key {[ "numberOfRecordsUpdated" := PyInt 1 ]} = true <->
  exists e,
    service_outcome (answering {[ "numberOfRecordsUpdated" := PyInt 1 ]})
      "DELETE FROM sessions" None blank = Raise e.
Proof.
  apply (error_key_test_is_exact
           (answering {[ "numberOfRecordsUpdated" := PyInt 1 ]})
           "DELETE FROM sessions" None blank
           {[ "numberOfRecordsUpdated" := PyInt 1 ]});
    vm_compute; reflexivity.
Defined.

(** X4: of a caught exception only [str(e)] survives. Two failures give
    equal results exactly when their messages are equal, whatever the
    classes of the two exceptions, the SQL texts, the databases and the
    worlds: the class of the exception cannot be recovered. *)
Theorem failure_keeps_only_the_message
    (client1 client2 : Client) (stmt1 stmt2 : string)
    (db1 db2 : option string) (w1 w2 : World) (e1 e2 : PyExc) :
  service_outcome client1 stmt1 db1 w1 = Raise e1 ->
  isinstance_Exception e1 = true ->
  service_outcome client2 stmt2 db2 w2 = Raise e2 ->
  isinstance_Exception e2 = true ->
  ((execute_statement client1 stmt1 db1 w1).1 =
   (execute_statement client2 stmt2 db2 w2).1 <-> str e1 = str e2).
Proof.
  intros Hout1 Hexc1 Hout2 Hexc2.
  rewrite !execute_statement_run, Hout1, Hout2, Hexc1, Hexc2. cbn [fst].
  split.
  - intros H.
    apply (f_equal (fun o : Outcome (gmap string PyValue) =>
                      match o with
                      | Return d => d !! "error"
                      | Raise _ => None
                      end)) in H.
    rewrite !lookup_singleton_eq in H. by injection H.
  - by intros ->.
Qed.

Lemma failure_keeps_only_the_message_witness :
  (execute_statement (raising (mkExc ClientError "timed out"))
     "SELECT 1" None blank).1 =
  (execute_statement
     (raising (mkExc (Subclass "ReadTimeoutError" Exception) "timed out"))
     "SELECT 2" (Some "transplant_platform") blank).1.
Proof.
  apply (failure_keeps_only_the_message
           (raising (mkExc ClientError "timed out"))
           (raising (mkExc (Subclass "ReadTimeoutError" Exception) "timed out"))
           "SELECT 1" "SELECT 2" None (Some "transplant_platform") blank blank
           (mkExc ClientError "timed out")
           (mkExc (Subclass "ReadTimeoutError" Exception) "timed out"));
    reflexivity.
Defined.

(** ** Calls in sequence *)

(** X5: the executor keeps no state of its own. With a client whose
    answers do not depend on earlier requests, the outcome of a call is
    the same in any two worlds that agree on the two identifiers, so it
    does not depend on what was printed or sent before; in particular
    calling again with the same arguments gives the same outcome. *)
Theorem execute_statement_is_stateless
    (client : Client) (stmt : string) (db : option string) (w w' : World) :
  history_independent client ->
  g_DB_CLUSTER_ARN (globals w) = g_DB_CLUSTER_ARN (globals w') ->
  g_SECRET_ARN (globals w) = g_SECRET_ARN (globals w') ->
  (execute_statement client stmt db w).1 =
    (execute_statement client stmt db w').1
  /\ (execute_statement client stmt db
        (execute_statement client stmt db w).2).1 =
     (execute_statement client stmt db w).1.
Proof.
  intros Hind Harn Hsecret.
  assert (forall v v' : World,
            g_DB_CLUSTER_ARN (globals v) = g_DB_CLUSTER_ARN (globals v') ->
            g_SECRET_ARN (globals v) = g_SECRET_ARN (globals v') ->
            (execute_statement client stmt db v).1 =
              (execute_statement client stmt db v').1) as Hsame.
  { intros v v' Ha Hs. rewrite !execute_statement_run.
    unfold service_outcome, request_of. rewrite Ha, Hs.
    rewrite (Hind (calls v) (calls v')).
    destruct (client_execute client (calls v') _) as [payload|e];
      [reflexivity|].
    destruct (isinstance_Exception e); reflexivity. }
  split; [by apply Hsame|].
  apply Hsame; by rewrite execute_statement_globals.
Qed.

Lemma execute_statement_is_stateless_witness :
  (execute_statement (raising (mkExc ClientError "denied")) "SELECT 1" None
     blank).1 =
    (execute_statement (raising (mkExc ClientError "denied")) "SELECT 1" None
       (main blank).2).1
  /\ (execute_statement (raising (mkExc ClientError "denied")) "SELECT 1" None
        (execute_statement (raising (mkExc ClientError "denied")) "SELECT 1"
           None blank).2).1 =
     (execute_statement (raising (mkExc ClientError "denied")) "SELECT 1" None
        blank).1.
Proof.
  apply (execute_statement_is_stateless
           (raising (mkExc ClientError "denied")) "SELECT 1" None
           blank (main blank).2).
  - intros h h' r. reflexivity.
  - reflexivity.
  - reflexivity.
Defined.

Lemma run_ops_cons (o : Op) (ops : list Op) (w : World) :
  run_ops (o :: ops) w = run_ops ops (run_op w o).
Proof. reflexivity. Qed.

Lemma run_op_sends (w : World) (o : Op) :
  calls (run_op w o) =
    calls w ++ match op_request (globals w) o with
               | Some req => [req]
               | None => []
               end.
Proof.
  destruct o as [|client stmt db|]; cbn [run_op op_request].
  - by rewrite app_nil_r.
  - apply execute_statement_calls.
  - by rewrite main_run, app_nil_r.
Qed.

(** X6: after any sequence of calls of the module's functions, from any
    world, the log holds, after what it held before, one request for each
    call of [execute_statement], in the order of the calls, each with the
    SQL text and database of its call, whether the calls succeeded,
    failed or raised; [main] and [create_rds_data_client] add none. *)
Theorem requests_follow_the_calls (ops : list Op) (w : World) :
  calls (run_ops ops w) = calls w ++ omap (op_request (globals w)) ops.
Proof.
  revert w. induction ops as [|o ops IH]; intros w.
  - by rewrite app_nil_r.
  - rewrite run_ops_cons, IH, run_op_globals, run_op_sends.
    rewrite <- app_assoc. f_equal. cbn [omap list_omap].
    destruct (op_request (globals w) o); reflexivity.
Qed.

(** ** Loading the module *)


(** ** The unused global *)

Lemma run_op_set_DATABASE_NAME (name : string) (w : World) (o : Op) :
  run_op (set_DATABASE_NAME name w) o = set_DATABASE_NAME name (run_op w o).
Proof.
  destruct o as [|client stmt db|]; cbn [run_op].
  - reflexivity.
  - rewrite !execute_statement_run.
    change (service_outcome client stmt db (set_DATABASE_NAME name w))
      with (service_outcome client stmt db w).
    destruct (service_outcome client stmt db w) as [payload|e];
      [reflexivity|].
    destruct (isinstance_Exception e); reflexivity.
  - by rewrite !main_run.
Qed.

(** X8: no function of the module reads [DATABASE_NAME]. Rebinding it to
    any string changes neither the outcome of a call of
    [execute_statement] or [main], nor, over any sequence of calls, the
    text printed and the requests sent: the runs are the same up to the
    value of that one global. *)
Theorem DATABASE_NAME_is_never_read
    (name : string) (ops : list Op) (w : World) :
  run_ops ops (set_DATABASE_NAME name w) =
    set_DATABASE_NAME name (run_ops ops w)
  /\ stdout (run_ops ops (set_DATABASE_NAME name w)) = stdout (run_ops ops w)
  /\ calls (run_ops ops (set_DATABASE_NAME name w)) = calls (run_ops ops w)
  /\ (forall (client : Client) (stmt : string) (db : option string),
        (execute_statement client stmt db (set_DATABASE_NAME name w)).1 =
        (execute_statement client stmt db w).1)
  /\ (main (set_DATABASE_NAME name w)).1 = (main w).1.
Proof.
  assert (run_ops ops (set_DATABASE_NAME name w) =
            set_DATABASE_NAME name (run_ops ops w)) as Hrun.
  { revert w. induction ops as [|o ops IH]; intros w; [reflexivity|].
    by rewrite !run_ops_cons, run_op_set_DATABASE_NAME, IH. }
  split; [exact Hrun|]. rewrite Hrun.
  split; [reflexivity|]. split; [reflexivity|]. split.
  - intros client stmt db. rewrite !execute_statement_run.
    change (service_outcome client stmt db (set_DATABASE_NAME name w))
      with (service_outcome client stmt db w).
    destruct (service_outcome client stmt db w) as [payload|e];
      [reflexivity|].
    destruct (isinstance_Exception e); reflexivity.
  - by rewrite !main_run.
Qed.
